(** * Menu-item dialog of the navigation dashboard: selection resolution

    Shallow embedding of [MenuItemDialog.tsx] (selection keys, the option
    tree, the display label and the dialog's handlers) and the properties
    of it that the specification states. *)

From Stdlib Require Import String Ascii List Bool Arith.
Import ListNotations.
Open Scope string_scope.
Open Scope list_scope.

(** ** JavaScript strings: [split] and [join] with a one-character separator *)

Module Js.

(** [s.split(sep)]: the segments between occurrences of [sep]; the result
    always has at least one segment ([[""]] for the empty string). *)
Fixpoint split (sep : ascii) (s : string) : list string :=
  match s with
  | EmptyString => [EmptyString]
  | String c rest =>
      if Ascii.eqb c sep then EmptyString :: split sep rest
      else match split sep rest with
           | [] => [String c EmptyString]
           | seg :: segs => String c seg :: segs
           end
  end.

(** [parts.join(sep)] on an array of strings. *)
Definition join (sep : ascii) (parts : list string) : string :=
  String.concat (String sep EmptyString) parts.

(** Does the character occur in the string? *)
Fixpoint occurs (c : ascii) (s : string) : bool :=
  match s with
  | EmptyString => false
  | String d rest => Ascii.eqb d c || occurs c rest
  end.

(** The text before the first [sep] (all of [s] when there is none). *)
Fixpoint before (sep : ascii) (s : string) : string :=
  match s with
  | EmptyString => EmptyString
  | String c rest => if Ascii.eqb c sep then EmptyString else String c (before sep rest)
  end.

(** The text after the first [sep] (empty when there is none). *)
Fixpoint after (sep : ascii) (s : string) : string :=
  match s with
  | EmptyString => EmptyString
  | String c rest => if Ascii.eqb c sep then rest else after sep rest
  end.

(** Truthiness of a string: only the empty string is falsy. *)
Definition truthy (s : string) : bool :=
  match s with EmptyString => false | String _ _ => true end.

(** Truthiness of a [string | undefined]. *)
Definition truthy_opt (o : option string) : bool :=
  match o with None => false | Some s => truthy s end.

(** What evaluating an expression can do: return a value, or throw.  A
    thrown value is the [TypeError] that reading a property of [undefined]
    raises, or an error object the program builds itself with
    [throw new Error(message)]. *)
Inductive exn : Type :=
| TypeError_property_of_undefined (property : string)
| Error (message : string).

Inductive completion (A : Type) : Type :=
| Return (a : A)
| Throw (e : exn).
Arguments Return {A} a.
Arguments Throw {A} e.

End Js.

Definition colon : ascii := ":"%char.

(** ** Data model *)

(** [type MenuItemType = "category" | "collection" | "link" | "page"]: a
    string at run time; [getMenuItemData] casts into it without a check, so
    the embedding keeps the string and names the four members. *)
Definition MenuItemType : Type := string.

Definition MenuItemType_members : list MenuItemType :=
  ["category"; "collection"; "link"; "page"].

Module MenuItemData.
Record t : Type := make { id : string; type : MenuItemType }.
End MenuItemData.

Module MenuItemDialogFormData.
Record t : Type := make { id : string; name : string; type : MenuItemType }.
End MenuItemDialogFormData.

(** A label is a [React.ReactNode]: the dialog builds plain strings (entity
    names, group captions) and one element, the [<div>] of the link
    suggestion, given here by its tag and its [__html].  These two are the
    labels of the embedding; the other values of [React.ReactNode] ([null],
    [undefined], numbers, booleans, arrays) are built nowhere in the module
    and are not represented, [null] and [undefined] being the ones on which
    [label.toString()] would throw. *)
Inductive ReactNode : Type :=
| Text (s : string)
| Element (tag : string) (innerHTML : string).

(** [label.toString()]: a string is itself, an element object prints as any
    plain object does. *)
Definition toString (n : ReactNode) : string :=
  match n with
  | Text s => s
  | Element _ _ => "[object Object]"
  end.

(** [SelectMenuItem]: [children] and [value] are both optional fields. *)
#[local] Unset Elimination Schemes.
Inductive SelectMenuItem : Type :=
  MkSelectMenuItem {
    children : option (list SelectMenuItem);
    label : ReactNode;
    value : option string
  }.
#[local] Set Elimination Schemes.

(** Induction on the option tree: a group may assume the property of each
    of its children. *)
Section SelectMenuItem_induction.
Variable P : SelectMenuItem -> Prop.
Hypothesis P_group :
  forall items l v, Forall P items -> P (MkSelectMenuItem (Some items) l v).
Hypothesis P_leaf : forall l v, P (MkSelectMenuItem None l v).

Fixpoint SelectMenuItem_ind (menuItem : SelectMenuItem) : P menuItem :=
  match menuItem with
  | MkSelectMenuItem (Some items) l v =>
      P_group items l v
        ((fix all (its : list SelectMenuItem) : Forall P its :=
            match its with
            | [] => Forall_nil P
            | it :: rest => Forall_cons it (SelectMenuItem_ind it) (all rest)
            end) items)
  | MkSelectMenuItem None l v => P_leaf l v
  end.
End SelectMenuItem_induction.

(** [menuItem.value === value] for a string [v]: [undefined] never equals it. *)
Definition value_is (v : string) (menuItem : SelectMenuItem) : bool :=
  match value menuItem with
  | Some s => String.eqb s v
  | None => false
  end.

(** ** The three pure functions *)

(** [matches.find(match => match !== undefined)]. *)
Fixpoint find_defined {A : Type} (matches : list (option A)) : option A :=
  match matches with
  | [] => None
  | Some m :: _ => Some m
  | None :: rest => find_defined rest
  end.

(** The arrow function mapped over the menu by [findMenuItem]. *)
Fixpoint findInItem (v : string) (menuItem : SelectMenuItem) : option SelectMenuItem :=
  match menuItem with
  | MkSelectMenuItem (Some items) _ _ => find_defined (map (findInItem v) items)
  | MkSelectMenuItem None _ _ => if value_is v menuItem then Some menuItem else None
  end.

Definition findMenuItem (menu : list SelectMenuItem) (v : string) : option SelectMenuItem :=
  let matches := map (findInItem v) menu in
  find_defined matches.

Definition getMenuItemData (v : string) : MenuItemData.t :=
  match Js.split colon v with
  | type :: idParts =>
      {| MenuItemData.id := Js.join colon idParts; MenuItemData.type := type |}
  | [] => {| MenuItemData.id := ""; MenuItemData.type := "" |}
  end.

Definition getDisplayValue (menu : list SelectMenuItem) (v : string) : Js.completion string :=
  let menuItemData := getMenuItemData v in
  if String.eqb (MenuItemData.type menuItemData) "link" then
    Js.Return (MenuItemData.id menuItemData)
  else
    match findMenuItem menu v with
    | Some found => Js.Return (toString (label found))
    | None => Js.Throw (Js.TypeError_property_of_undefined "label")
    end.

(** Leaves of the option tree in depth-first order: the nodes without a
    [children] field, a group's leaves before those of its later siblings.
    This is the specification's reading of the tree, not code. *)
Fixpoint leavesOf (menuItem : SelectMenuItem) : list SelectMenuItem :=
  match menuItem with
  | MkSelectMenuItem (Some items) _ _ => flat_map leavesOf items
  | MkSelectMenuItem None _ _ => [menuItem]
  end.

Definition leaves (menu : list SelectMenuItem) : list SelectMenuItem :=
  flat_map leavesOf menu.

(** ** The dialog: state, external collaborators, handlers *)

(** A candidate entity of the category or collection search: the handlers
    use its [id] and [name] only. *)
Module SearchNode.
Record t : Type := make { id : string; name : string }.
End SearchNode.

(** Interpolation parameters handed to [i18n.t]. *)
Inductive tparam : Type :=
| TString (s : string)
| TNumber (n : nat).

(** What the dialog takes from outside the module: the [is-url] classifier
    and the translation function [i18n.t]. *)
Class Host : Type := {
  isUrl : string -> bool;
  i18n_t : string -> list (string * tparam) -> string
}.

(** A host to evaluate the dialog on: absolute [http(s)://] prefixes count
    as URLs and captions are left untranslated. *)
Definition sampleHost : Host := {|
  isUrl := fun s => String.prefix "http://" s || String.prefix "https://" s;
  i18n_t := fun key _ => key
|}.

Definition defaultInitial : MenuItemDialogFormData.t :=
  {| MenuItemDialogFormData.id := "";
     MenuItemDialogFormData.name := "";
     MenuItemDialogFormData.type := "category" |}.

(** [initial || defaultInitial], the [initial] prop handed to [Form]. *)
Definition formInitial (initial : option MenuItemDialogFormData.t) : MenuItemDialogFormData.t :=
  match initial with
  | Some given => given
  | None => defaultInitial
  end.

(** What a handler does to the outside, in the order it does it: a state
    setter, a change of a form field, or the [onQueryChange] prop. *)
Inductive Event : Type :=
| SetUrl (u : option string)
| SetDisplayValue (s : string)
| Change (name value : string)
| OnQueryChange (query : string).

Record State : Type := MkState {
  displayValue : string;
  url : option string;
  data : MenuItemDialogFormData.t;
  trace : list Event
}.

(** A handler runs on the state, may throw, and leaves the state as it was
    when it stopped. *)
Definition Handler (A : Type) : Type := State -> Js.completion A * State.

Definition ret {A : Type} (a : A) : Handler A := fun st => (Js.Return a, st).

Definition bind {A B : Type} (m : Handler A) (k : A -> Handler B) : Handler B :=
  fun st =>
    match m st with
    | (Js.Return a, st') => k a st'
    | (Js.Throw e, st') => (Js.Throw e, st')
    end.

Notation "x <- m ;; k" := (bind m (fun x => k))
  (at level 61, m at next level, right associativity).
Notation "m ;;; k" := (bind m (fun _ => k))
  (at level 61, right associativity).

(** The value of an expression that may throw. *)
Definition eval {A : Type} (c : Js.completion A) : Handler A := fun st => (c, st).

Definition emit (e : Event) (st : State) : State :=
  {| displayValue := displayValue st; url := url st; data := data st;
     trace := trace st ++ [e] |}.

Definition setUrl (u : option string) : Handler unit :=
  fun st =>
    (Js.Return tt,
     emit (SetUrl u)
       {| displayValue := displayValue st; url := u; data := data st; trace := trace st |}).

Definition setDisplayValue (s : string) : Handler unit :=
  fun st =>
    (Js.Return tt,
     emit (SetDisplayValue s)
       {| displayValue := s; url := url st; data := data st; trace := trace st |}).

Definition onQueryChange (query : string) : Handler unit :=
  fun st => (Js.Return tt, emit (OnQueryChange query) st).

(** [data[name] = value] on the three fields of the form data. *)
Definition setField (name value : string) (d : MenuItemDialogFormData.t) : MenuItemDialogFormData.t :=
  if String.eqb name "id" then
    {| MenuItemDialogFormData.id := value;
       MenuItemDialogFormData.name := MenuItemDialogFormData.name d;
       MenuItemDialogFormData.type := MenuItemDialogFormData.type d |}
  else if String.eqb name "name" then
    {| MenuItemDialogFormData.id := MenuItemDialogFormData.id d;
       MenuItemDialogFormData.name := value;
       MenuItemDialogFormData.type := MenuItemDialogFormData.type d |}
  else if String.eqb name "type" then
    {| MenuItemDialogFormData.id := MenuItemDialogFormData.id d;
       MenuItemDialogFormData.name := MenuItemDialogFormData.name d;
       MenuItemDialogFormData.type := value |}
  else d.

(** Modelled from the spec: the [change(event, cb)] that [components/Form]
    hands to its children is not among the sources.  The specification has
    the selection handler "write id and type into the form's data, then
    resolve and store the display label", as "a chain of dependent state
    updates": [change] writes [event.target.value] into the field
    [event.target.name] of the form data and runs [cb] once that is done. *)
Definition change (name value : string) (cb : Handler unit) : Handler unit :=
  fun st =>
    cb (emit (Change name value)
          {| displayValue := displayValue st; url := url st;
             data := setField name value (data st); trace := trace st |}).

Section Dialog.
Context {host : Host}.

Definition categoryOption (category : SearchNode.t) : SelectMenuItem :=
  {| children := None;
     label := Text (SearchNode.name category);
     value := Some ("category:" ++ SearchNode.id category)%string |}.

Definition collectionOption (collection : SearchNode.t) : SelectMenuItem :=
  {| children := None;
     label := Text (SearchNode.name collection);
     value := Some ("collection:" ++ SearchNode.id collection)%string |}.

Definition linkOption (u : string) : SelectMenuItem :=
  {| children := None;
     label := Element "div"
                (i18n_t "link to: <strong>{{ url }}</strong>"
                   [("context", TString "add link to navigation"); ("url", TString u)]);
     value := Some ("link:" ++ u)%string |}.

(** The [options] of one render, from the props [categories] and
    [collections] and the state [url]. *)
Definition options (categories collections : list SearchNode.t) (url : option string)
  : list SelectMenuItem :=
  let options := [] in
  let options :=
    if (0 <? List.length categories)%nat then
      options ++
      [ {| children := Some (map categoryOption categories);
           label := Text (i18n_t "Categories ({{ number }})"
                            [("number", TNumber (List.length categories))]);
           value := None |} ]
    else options in
  let options :=
    if (0 <? List.length collections)%nat then
      options ++
      [ {| children := Some (map collectionOption collections);
           label := Text (i18n_t "Collections ({{ number }})"
                            [("number", TNumber (List.length collections))]);
           value := None |} ]
    else options in
  match url with
  | Some u => if Js.truthy u then [linkOption u] else options
  | None => options
  end.

Definition handleQueryChange (query : string) : Handler unit :=
  fun st =>
    ((if isUrl query then setUrl (Some query)
      else if Js.truthy_opt (url st) then setUrl None
      else ret tt) ;;;
     onQueryChange query) st.

(** [handleSelectChange] of one render: [options] is the tree of that
    render and [v] is [event.target.value]. *)
Definition handleSelectChange (options : list SelectMenuItem) (v : string) : Handler unit :=
  let menuItemData := getMenuItemData v in
  change "id" (MenuItemData.id menuItemData)
    (change "type" (MenuItemData.type menuItemData)
       (shown <- eval (getDisplayValue options v) ;;
        setDisplayValue shown)).

End Dialog.

(** The [OnQueryChange] calls of a trace, in order. *)
Fixpoint queryCalls (events : list Event) : list string :=
  match events with
  | [] => []
  | OnQueryChange q :: rest => q :: queryCalls rest
  | _ :: rest => queryCalls rest
  end.

(** A failure the program signals itself, as opposed to one the run time
    raises on a missing value. *)
Definition explicit_failure {A : Type} (c : Js.completion A) : Prop :=
  exists message, c = Js.Throw (Js.Error message).

(** The tree of the specification's scenario: one group of categories with
    the leaf "Accessories". *)
Definition categories7 : list SelectMenuItem :=
  [ {| children := Some [ {| children := None; label := Text "Accessories";
                             value := Some "category:7" |} ];
       label := Text "Categories (1)"; value := None |} ].

(** A state to run handlers on. *)
Definition idle : State :=
  {| displayValue := ""; url := None; data := defaultInitial; trace := [] |}.

(** The two group nodes that [options] builds, by name. *)
Definition categoryGroup {host : Host} (categories : list SearchNode.t) : SelectMenuItem :=
  {| children := Some (map categoryOption categories);
     label := Text (i18n_t "Categories ({{ number }})"
                      [("number", TNumber (List.length categories))]);
     value := None |}.

Definition collectionGroup {host : Host} (collections : list SearchNode.t) : SelectMenuItem :=
  {| children := Some (map collectionOption collections);
     label := Text (i18n_t "Collections ({{ number }})"
                      [("number", TNumber (List.length collections))]);
     value := None |}.

(** Candidate lists to evaluate the dialog on. *)
Definition sampleCategories : list SearchNode.t :=
  [SearchNode.make "7" "Accessories"; SearchNode.make "8" "Groceries"].

Definition sampleCollections : list SearchNode.t :=
  [SearchNode.make "42" "Summer"; SearchNode.make "7" "Winter"].

(** The first candidate of a list with a given id. *)
Definition findEntity (i : string) (nodes : list SearchNode.t) : option SearchNode.t :=
  find (fun node => String.eqb (SearchNode.id node) i) nodes.

(** The state after a series of keystrokes, each handled by
    [handleQueryChange] in turn. *)
Fixpoint handleQueries {host : Host} (queries : list string) (st : State) : State :=
  match queries with
  | [] => st
  | query :: later => handleQueries later (snd (handleQueryChange query st))
  end.

(** ** Lemmas on strings *)

Lemma split_nonempty sep s : Js.split sep s <> [].
Proof.
  destruct s as [|c rest]; simpl; [discriminate|].
  destruct (Ascii.eqb c sep); [discriminate|].
  destruct (Js.split sep rest); discriminate.
Qed.

Lemma join_cons_cons sep x y l :
  Js.join sep (x :: y :: l) = (x ++ String sep (Js.join sep (y :: l)))%string.
Proof. reflexivity. Qed.

Lemma join_split sep s : Js.join sep (Js.split sep s) = s.
Proof.
  induction s as [|c rest IH]; simpl; [reflexivity|].
  destruct (Ascii.eqb c sep) eqn:E.
  - apply Ascii.eqb_eq in E; subst c.
    destruct (Js.split sep rest) as [|seg segs] eqn:S.
    + now apply split_nonempty in S.
    + rewrite join_cons_cons, IH. reflexivity.
  - destruct (Js.split sep rest) as [|seg segs] eqn:S.
    + now apply split_nonempty in S.
    + destruct segs as [|seg' segs].
      * unfold Js.join in *; simpl in *. now rewrite IH.
      * rewrite join_cons_cons in *. simpl. now rewrite IH.
Qed.

Lemma split_before_after sep s :
  Js.occurs sep s = true ->
  Js.split sep s = Js.before sep s :: Js.split sep (Js.after sep s).
Proof.
  induction s as [|c rest IH]; simpl; [discriminate|].
  destruct (Ascii.eqb c sep) eqn:E; simpl; [reflexivity|].
  intros H. rewrite (IH H). reflexivity.
Qed.

Lemma split_no_sep sep s : Js.occurs sep s = false -> Js.split sep s = [s].
Proof.
  induction s as [|c rest IH]; simpl; [reflexivity|].
  destruct (Ascii.eqb c sep) eqn:E; simpl; [discriminate|].
  intros H. now rewrite (IH H).
Qed.

Lemma split_tag sep t rest :
  Js.occurs sep t = false ->
  Js.split sep (t ++ String sep rest) = t :: Js.split sep rest.
Proof.
  induction t as [|c t IH]; simpl.
  - now rewrite Ascii.eqb_refl.
  - destruct (Ascii.eqb c sep) eqn:E; simpl; [discriminate|].
    intros H. now rewrite (IH H).
Qed.

Lemma getMenuItemData_tagged t rest :
  Js.occurs colon t = false ->
  getMenuItemData (t ++ ":" ++ rest) =
  {| MenuItemData.id := rest; MenuItemData.type := t |}.
Proof.
  intros H. unfold getMenuItemData.
  change (t ++ ":" ++ rest)%string with (t ++ String colon rest)%string.
  rewrite (split_tag _ _ _ H), join_split. reflexivity.
Qed.

(** C1. For each of the four menu-item types and every id, colons included,
    decoding the key [type ++ ":" ++ id] gives back exactly that type and
    that id: only the first colon separates. *)
Theorem getMenuItemData_roundtrip (type id : string) :
  In type MenuItemType_members ->
  getMenuItemData (type ++ ":" ++ id) =
  {| MenuItemData.id := id; MenuItemData.type := type |}.
Proof.
  intros H. apply getMenuItemData_tagged.
  repeat (destruct H as [<-|H]; [reflexivity|]). destruct H.
Qed.

Lemma getMenuItemData_roundtrip_witness :
  In "link" MenuItemType_members /\
  getMenuItemData ("link" ++ ":" ++ "https://a.b/c") =
  {| MenuItemData.id := "https://a.b/c"; MenuItemData.type := "link" |}.
Proof.
  assert (H : In "link" MenuItemType_members) by (simpl; tauto).
  split; [exact H | exact (getMenuItemData_roundtrip "link" "https://a.b/c" H)].
Defined.

Lemma before_after_no_sep sep s :
  Js.occurs sep s = false -> Js.before sep s = s /\ Js.after sep s = "".
Proof.
  induction s as [|c rest IH]; simpl; [now split|].
  destruct (Ascii.eqb c sep); simpl; [discriminate|].
  intros H. destruct (IH H) as [-> ->]. now split.
Qed.

Lemma getMenuItemData_segments v :
  getMenuItemData v =
  {| MenuItemData.id := Js.after colon v; MenuItemData.type := Js.before colon v |}.
Proof.
  unfold getMenuItemData.
  destruct (Js.occurs colon v) eqn:O.
  - rewrite (split_before_after _ _ O), join_split. reflexivity.
  - rewrite (split_no_sep _ _ O).
    destruct (before_after_no_sep _ _ O) as [-> ->]. reflexivity.
Qed.

(** ** Lemmas on the tree search *)

Lemma find_app_first {A : Type} (p : A -> bool) (l1 l2 : list A) :
  find p (l1 ++ l2) =
  match find p l1 with Some x => Some x | None => find p l2 end.
Proof.
  induction l1 as [|a l1 IH]; simpl; [reflexivity|].
  destruct (p a); [reflexivity | exact IH].
Qed.

Lemma find_defined_app {A : Type} (l1 l2 : list (option A)) :
  find_defined (l1 ++ l2) =
  match find_defined l1 with Some x => Some x | None => find_defined l2 end.
Proof.
  induction l1 as [|[a|] l1 IH]; simpl; [reflexivity | reflexivity | exact IH].
Qed.

(** The source's recursion, read off [findMenuItem] itself. *)
Lemma findMenuItem_nil v : findMenuItem [] v = None.
Proof. reflexivity. Qed.

Lemma findMenuItem_cons_group items l x rest v :
  findMenuItem (MkSelectMenuItem (Some items) l x :: rest) v =
  match findMenuItem items v with
  | Some found => Some found
  | None => findMenuItem rest v
  end.
Proof.
  unfold findMenuItem. simpl.
  destruct (find_defined (map (findInItem v) items)); reflexivity.
Qed.

Lemma findMenuItem_cons_leaf l x rest v :
  findMenuItem (MkSelectMenuItem None l x :: rest) v =
  if value_is v (MkSelectMenuItem None l x) then Some (MkSelectMenuItem None l x)
  else findMenuItem rest v.
Proof.
  unfold findMenuItem. simpl.
  destruct (value_is v (MkSelectMenuItem None l x)); reflexivity.
Qed.

Lemma find_defined_flat_map v items :
  Forall (fun it => findInItem v it = find (value_is v) (leavesOf it)) items ->
  find_defined (map (findInItem v) items) = find (value_is v) (flat_map leavesOf items).
Proof.
  induction 1 as [|it rest Hit _ IH]; simpl; [reflexivity|].
  rewrite find_app_first, <- Hit, IH.
  destruct (findInItem v it); reflexivity.
Qed.

Lemma findInItem_leaves v menuItem :
  findInItem v menuItem = find (value_is v) (leavesOf menuItem).
Proof.
  induction menuItem as [items l x IH | l x] using SelectMenuItem_ind.
  - simpl. now apply find_defined_flat_map.
  - simpl. destruct (value_is v (MkSelectMenuItem None l x)); reflexivity.
Qed.

Lemma findMenuItem_leaves menu v :
  findMenuItem menu v = find (value_is v) (leaves menu).
Proof.
  unfold findMenuItem, leaves. apply find_defined_flat_map.
  apply Forall_forall. intros it _. apply findInItem_leaves.
Qed.

Lemma value_is_true v menuItem : value_is v menuItem = true <-> value menuItem = Some v.
Proof.
  unfold value_is. destruct (value menuItem) as [s|].
  - rewrite String.eqb_eq. split; congruence.
  - split; discriminate.
Qed.

Lemma leavesOf_childless menuItem :
  forall leaf, In leaf (leavesOf menuItem) -> children leaf = None.
Proof.
  induction menuItem as [items l x IH | l x] using SelectMenuItem_ind; simpl; intros leaf H.
  - apply in_flat_map in H. destruct H as [it [Hit Hleaf]].
    rewrite Forall_forall in IH. exact (IH it Hit leaf Hleaf).
  - destruct H as [<-|[]]. reflexivity.
Qed.

Lemma leaves_childless menu leaf : In leaf (leaves menu) -> children leaf = None.
Proof.
  unfold leaves. intros H. apply in_flat_map in H.
  destruct H as [it [_ Hleaf]]. exact (leavesOf_childless it leaf Hleaf).
Qed.

Lemma findMenuItem_none menu v :
  findMenuItem menu v = None <->
  (forall leaf, In leaf (leaves menu) -> value leaf <> Some v).
Proof.
  rewrite findMenuItem_leaves. split.
  - intros H leaf Hin Hv.
    apply (find_none _ _ H) in Hin. apply value_is_true in Hv. congruence.
  - intros H. destruct (find (value_is v) (leaves menu)) as [leaf|] eqn:F; [|reflexivity].
    apply find_some in F. destruct F as [Hin Hv].
    apply value_is_true in Hv. destruct (H leaf Hin Hv).
Qed.

(** ** The tree search *)

(** C2. The search returns [undefined] exactly when no leaf of the tree
    carries the target value; in every case its result is the first leaf
    carrying it in depth-first order, a group's children being searched
    before the group's later siblings. *)
Theorem findMenuItem_first_leaf (menu : list SelectMenuItem) (v : string) :
  (findMenuItem menu v = None <->
   forall leaf, In leaf (leaves menu) -> value leaf <> Some v) /\
  findMenuItem menu v = find (value_is v) (leaves menu) /\
  (forall items l x rest,
      leaves (MkSelectMenuItem (Some items) l x :: rest) = leaves items ++ leaves rest).
Proof.
  split; [apply findMenuItem_none|].
  split; [apply findMenuItem_leaves|].
  reflexivity.
Qed.

Lemma findMenuItem_first_leaf_witness :
  findMenuItem
    [ {| children := Some [ {| children := None; label := Text "Accessories";
                               value := Some "category:7" |} ];
         label := Text "Categories"; value := None |};
      {| children := None; label := Text "Other"; value := Some "category:7" |} ]
    "category:7"
  = Some {| children := None; label := Text "Accessories"; value := Some "category:7" |}.
Proof.
  rewrite (proj1 (proj2 (findMenuItem_first_leaf _ "category:7"))). reflexivity.
Defined.

(** C10. A node with a [children] array is a group whatever else it
    carries: the search goes through its children only, its own [value] is
    never compared, no node with children is ever the result, and a group
    with no children matches nothing.  Going through the children means
    that the first leaf below the group that carries the target is what
    the search returns, before anything of the later siblings; a node
    without [children] is matched on its own value. *)
Theorem findMenuItem_group_by_children (v : string) :
  (forall items l x rest,
      findMenuItem (MkSelectMenuItem (Some items) l x :: rest) v =
      match findMenuItem items v with
      | Some found => Some found
      | None => findMenuItem rest v
      end) /\
  (forall menu found, findMenuItem menu v = Some found -> children found = None) /\
  (forall l x, findMenuItem [MkSelectMenuItem (Some []) l x] v = None) /\
  (forall items l x rest,
      findMenuItem (MkSelectMenuItem (Some items) l x :: rest) v =
      match find (value_is v) (leaves items) with
      | Some found => Some found
      | None => findMenuItem rest v
      end) /\
  (forall l x rest,
      findMenuItem (MkSelectMenuItem None l x :: rest) v =
      if value_is v (MkSelectMenuItem None l x) then Some (MkSelectMenuItem None l x)
      else findMenuItem rest v) /\
  findMenuItem [] v = None.
Proof.
  split; [intros; apply findMenuItem_cons_group|].
  split; [|split; [reflexivity|]].
  - intros menu found H. rewrite findMenuItem_leaves in H.
    apply find_some in H. exact (leaves_childless menu found (proj1 H)).
  - split; [|split; [intros; apply findMenuItem_cons_leaf | reflexivity]].
    intros items l x rest.
    rewrite findMenuItem_cons_group, (findMenuItem_leaves items). reflexivity.
Qed.

Lemma findMenuItem_group_by_children_witness :
  findMenuItem
    [ {| children := Some [ {| children := None; label := Text "inner";
                               value := Some "page:1" |} ];
         label := Text "both"; value := Some "page:2" |} ]
    "page:2" = None /\
  children {| children := None; label := Text "inner"; value := Some "page:1" |} = None /\
  findMenuItem
    [ {| children := Some [ {| children := None; label := Text "inner";
                               value := Some "page:1" |} ];
         label := Text "both"; value := Some "page:2" |};
      {| children := None; label := Text "later"; value := Some "page:1" |} ]
    "page:1" = Some {| children := None; label := Text "inner"; value := Some "page:1" |}.
Proof.
  split; [|split].
  - rewrite (proj1 (findMenuItem_group_by_children "page:2")). reflexivity.
  - apply (proj1 (proj2 (findMenuItem_group_by_children "page:1"))
             [ {| children := Some [ {| children := None; label := Text "inner";
                                        value := Some "page:1" |} ];
                  label := Text "both"; value := Some "page:2" |} ]).
    reflexivity.
  - rewrite (proj1 (proj2 (proj2 (proj2 (findMenuItem_group_by_children "page:1"))))).
    reflexivity.
Defined.

(** ** The display label *)

Lemma getDisplayValue_not_found menu v :
  MenuItemData.type (getMenuItemData v) <> "link" ->
  findMenuItem menu v = None ->
  getDisplayValue menu v = Js.Throw (Js.TypeError_property_of_undefined "label").
Proof.
  intros Ht Hf. unfold getDisplayValue.
  destruct (String.eqb (MenuItemData.type (getMenuItemData v)) "link") eqn:E.
  - apply String.eqb_eq in E. contradiction.
  - now rewrite Hf.
Qed.

Lemma getDisplayValue_found menu v found :
  MenuItemData.type (getMenuItemData v) <> "link" ->
  findMenuItem menu v = Some found ->
  getDisplayValue menu v = Js.Return (toString (label found)).
Proof.
  intros Ht Hf. unfold getDisplayValue.
  destruct (String.eqb (MenuItemData.type (getMenuItemData v)) "link") eqn:E.
  - apply String.eqb_eq in E. contradiction.
  - now rewrite Hf.
Qed.

(** C3, as the code has it.  For a key of another type than "link" that no
    leaf of the tree carries, the label resolver returns no label at all,
    neither a placeholder nor an empty one: evaluation stops with the
    [TypeError] of reading [label] of the [undefined] search result. *)
Theorem getDisplayValue_missing_key_throws (menu : list SelectMenuItem) (v : string) :
  MenuItemData.type (getMenuItemData v) <> "link" ->
  (forall leaf, In leaf (leaves menu) -> value leaf <> Some v) ->
  getDisplayValue menu v = Js.Throw (Js.TypeError_property_of_undefined "label") /\
  (forall shown, getDisplayValue menu v <> Js.Return shown).
Proof.
  intros Ht Hno. apply findMenuItem_none in Hno.
  rewrite (getDisplayValue_not_found _ _ Ht Hno). split; [reflexivity | discriminate].
Qed.

Lemma getDisplayValue_missing_key_throws_witness :
  getDisplayValue categories7 "category:8"
  = Js.Throw (Js.TypeError_property_of_undefined "label") /\
  (forall shown, getDisplayValue categories7 "category:8" <> Js.Return shown).
Proof.
  apply (getDisplayValue_missing_key_throws categories7 "category:8").
  - simpl. discriminate.
  - simpl. intros leaf [<-|[]]. simpl. discriminate.
Defined.

(** C3, as the claim states it, fails: on a tree without the key the
    resolver does not signal a failure of its own, it stops on the
    dereference of the missing search result. *)
Lemma getDisplayValue_missing_key_no_explicit_failure :
  MenuItemData.type (getMenuItemData "category:8") <> "link" /\
  (forall leaf, In leaf (leaves categories7) -> value leaf <> Some "category:8") /\
  getDisplayValue categories7 "category:8"
  = Js.Throw (Js.TypeError_property_of_undefined "label") /\
  ~ explicit_failure (getDisplayValue categories7 "category:8").
Proof.
  split; [simpl; discriminate|].
  split; [simpl; intros leaf [<-|[]]; simpl; discriminate|].
  split; [reflexivity|].
  intros [message H]. simpl in H. discriminate.
Qed.

(** C5. For a key whose decoded type is "link" the display value is the
    decoded id, the raw URL text, whatever the tree holds: the tree is not
    consulted, so the empty tree gives the same answer. *)
Theorem getDisplayValue_link (menu : list SelectMenuItem) (v : string) :
  MenuItemData.type (getMenuItemData v) = "link" ->
  getDisplayValue menu v = Js.Return (MenuItemData.id (getMenuItemData v)) /\
  MenuItemData.id (getMenuItemData v) = Js.after colon v /\
  getDisplayValue menu v = getDisplayValue [] v.
Proof.
  intros Ht. unfold getDisplayValue. rewrite Ht. simpl.
  rewrite getMenuItemData_segments. simpl. repeat split.
Qed.

Lemma getDisplayValue_link_witness :
  getDisplayValue categories7 "link:https://a.b/c" = Js.Return "https://a.b/c".
Proof.
  exact (proj1 (getDisplayValue_link categories7 "link:https://a.b/c" eq_refl)).
Defined.

(** ** The decoder and unknown type tags *)

(** C8, as the code has it.  The decoder validates nothing: for every input
    it returns the record whose type is the text before the first ':' (the
    whole input when there is none) and whose id is the text after it,
    whether or not that type is one of the four members. *)
Theorem getMenuItemData_no_validation (v : string) :
  getMenuItemData v =
  {| MenuItemData.id := Js.after colon v; MenuItemData.type := Js.before colon v |}.
Proof. apply getMenuItemData_segments. Qed.

(** C8, as the claim states it, fails: the tag "foo" is none of the four
    members and comes back as the type of a returned record. *)
Lemma getMenuItemData_unknown_tag_accepted :
  Js.before colon "foo:1" = "foo" /\
  ~ In "foo" MenuItemType_members /\
  getMenuItemData "foo:1" = {| MenuItemData.id := "1"; MenuItemData.type := "foo" |} /\
  ~ In (MenuItemData.type (getMenuItemData "foo:1")) MenuItemType_members.
Proof.
  assert (N : ~ In "foo" MenuItemType_members).
  { simpl. intros [H|[H|[H|[H|[]]]]]; discriminate. }
  repeat split; assumption.
Qed.

(** ** The dialog *)

(** C9. Without an [initial] prop the form starts from the default record
    with empty id and name and type "category", a member of the
    enumeration. *)
Theorem formInitial_default :
  formInitial None =
  {| MenuItemDialogFormData.id := "";
     MenuItemDialogFormData.name := "";
     MenuItemDialogFormData.type := "category" |} /\
  In (MenuItemDialogFormData.type (formInitial None)) MenuItemType_members /\
  (forall given, formInitial (Some given) = given).
Proof. simpl. repeat split. now left. Qed.

Lemma queryCalls_app e1 e2 : queryCalls (e1 ++ e2) = queryCalls e1 ++ queryCalls e2.
Proof.
  induction e1 as [|e e1 IH]; simpl; [reflexivity|].
  destruct e; simpl; rewrite IH; reflexivity.
Qed.

Lemma truthy_nonempty u : Js.truthy u = true <-> u <> "".
Proof. destruct u; simpl; split; congruence. Qed.

Section DialogProperties.
Context {host : Host}.

Lemma options_truthy_url categories collections u :
  Js.truthy u = true -> options categories collections (Some u) = [linkOption u].
Proof. intros H. unfold options. now rewrite H. Qed.

Lemma handleQueryChange_run query st :
  handleQueryChange query st =
  (Js.Return tt,
   if isUrl query then
     {| displayValue := displayValue st; url := Some query; data := data st;
        trace := (trace st ++ [SetUrl (Some query)]) ++ [OnQueryChange query] |}
   else if Js.truthy_opt (url st) then
     {| displayValue := displayValue st; url := None; data := data st;
        trace := (trace st ++ [SetUrl None]) ++ [OnQueryChange query] |}
   else
     {| displayValue := displayValue st; url := url st; data := data st;
        trace := trace st ++ [OnQueryChange query] |}).
Proof.
  unfold handleQueryChange.
  destruct (isUrl query); [reflexivity|].
  destruct (Js.truthy_opt (url st)); reflexivity.
Qed.

(** C4. While a URL is held in the [url] state, the option tree is one
    leaf, of value "link:" followed by that URL, and holds no category or
    collection group, whatever the two candidate lists contain.  The state
    holds a URL after every query that [isUrl] accepts, the empty string
    not being a URL. *)
Theorem options_link_only (categories collections : list SearchNode.t) :
  (forall u, Js.truthy u = true ->
     exists shown,
       options categories collections (Some u) =
       [ {| children := None; label := shown; value := Some ("link:" ++ u)%string |} ]) /\
  (isUrl "" = false ->
   forall query st, isUrl query = true ->
     exists shown,
       options categories collections (url (snd (handleQueryChange query st))) =
       [ {| children := None; label := shown;
            value := Some ("link:" ++ query)%string |} ]).
Proof.
  split.
  - intros u Hu. eexists. rewrite (options_truthy_url _ _ _ Hu). reflexivity.
  - intros Hempty query st Hq. eexists.
    rewrite handleQueryChange_run, Hq. simpl url.
    rewrite options_truthy_url; [reflexivity|].
    apply truthy_nonempty. intros ->. congruence.
Qed.

(** C6. The query handler records the query as the detected URL when
    [isUrl] accepts it, clears a detected URL when it does not, leaves the
    state alone otherwise, and in each case returns after calling
    [onQueryChange] once, with the query as typed. *)
Theorem handleQueryChange_spec (query : string) (st : State) :
  fst (handleQueryChange query st) = Js.Return tt /\
  (isUrl query = true -> url (snd (handleQueryChange query st)) = Some query) /\
  (isUrl query = false -> Js.truthy_opt (url st) = true ->
   url (snd (handleQueryChange query st)) = None) /\
  (isUrl query = false -> Js.truthy_opt (url st) = false ->
   url (snd (handleQueryChange query st)) = url st) /\
  queryCalls (trace (snd (handleQueryChange query st))) =
  queryCalls (trace st) ++ [query] /\
  displayValue (snd (handleQueryChange query st)) = displayValue st /\
  data (snd (handleQueryChange query st)) = data st.
Proof.
  rewrite handleQueryChange_run. simpl fst. simpl snd.
  split; [reflexivity|].
  destruct (isUrl query); [|destruct (Js.truthy_opt (url st))]; simpl;
    repeat rewrite queryCalls_app; simpl; rewrite ?app_nil_r;
    repeat split; congruence.
Qed.

End DialogProperties.

Lemma handleSelectChange_found options v found st :
  MenuItemData.type (getMenuItemData v) <> "link" ->
  findMenuItem options v = Some found ->
  handleSelectChange options v st =
  (Js.Return tt,
   {| displayValue := toString (label found);
      url := url st;
      data := setField "type" (MenuItemData.type (getMenuItemData v))
                (setField "id" (MenuItemData.id (getMenuItemData v)) (data st));
      trace := ((trace st ++ [Change "id" (MenuItemData.id (getMenuItemData v))])
                  ++ [Change "type" (MenuItemData.type (getMenuItemData v))])
                 ++ [SetDisplayValue (toString (label found))] |}).
Proof.
  intros Ht Hf. unfold handleSelectChange, change, bind, eval.
  rewrite (getDisplayValue_found _ _ _ Ht Hf). reflexivity.
Qed.

(** C7. Selecting the key "collection:42" on a tree whose first leaf of
    that value is [leaf] writes id "42", then type "collection", into the
    form data and then sets the display value to the label of [leaf]: three
    updates in that order, the name of the form data and the detected URL
    untouched. *)
Theorem handleSelectChange_collection
    (options : list SelectMenuItem) (leaf : SelectMenuItem) (st : State) :
  find (value_is "collection:42") (leaves options) = Some leaf ->
  handleSelectChange options "collection:42" st =
  (Js.Return tt,
   {| displayValue := toString (label leaf);
      url := url st;
      data := {| MenuItemDialogFormData.id := "42";
                 MenuItemDialogFormData.name := MenuItemDialogFormData.name (data st);
                 MenuItemDialogFormData.type := "collection" |};
      trace := trace st ++ [ Change "id" "42"; Change "type" "collection";
                             SetDisplayValue (toString (label leaf)) ] |}).
Proof.
  intros H. rewrite <- findMenuItem_leaves in H.
  rewrite (handleSelectChange_found options "collection:42" leaf st);
    [|simpl; discriminate | exact H].
  simpl. repeat rewrite <- app_assoc. reflexivity.
Qed.

Lemma handleSelectChange_collection_witness :
  handleSelectChange
    (@options sampleHost
       [SearchNode.make "7" "Accessories"] [SearchNode.make "42" "Summer"] None)
    "collection:42" idle =
  (Js.Return tt,
   {| displayValue := "Summer";
      url := None;
      data := {| MenuItemDialogFormData.id := "42";
                 MenuItemDialogFormData.name := "";
                 MenuItemDialogFormData.type := "collection" |};
      trace := [ Change "id" "42"; Change "type" "collection"; SetDisplayValue "Summer" ] |}).
Proof.
  exact (handleSelectChange_collection
           (@options sampleHost
              [SearchNode.make "7" "Accessories"] [SearchNode.make "42" "Summer"] None)
           (collectionOption (SearchNode.make "42" "Summer")) idle eq_refl).
Defined.

Lemma options_link_only_witness :
  (exists shown,
      @options sampleHost
        [SearchNode.make "7" "Accessories"] [SearchNode.make "42" "Summer"]
        (Some "https://example.com") =
      [ {| children := None; label := shown; value := Some "link:https://example.com" |} ]) /\
  (exists shown,
      @options sampleHost
        [SearchNode.make "7" "Accessories"] [SearchNode.make "42" "Summer"]
        (url (snd (@handleQueryChange sampleHost "https://example.com" idle))) =
      [ {| children := None; label := shown; value := Some "link:https://example.com" |} ]).
Proof.
  split.
  - exact (proj1 (@options_link_only sampleHost
                    [SearchNode.make "7" "Accessories"] [SearchNode.make "42" "Summer"])
             "https://example.com" eq_refl).
  - exact (proj2 (@options_link_only sampleHost
                    [SearchNode.make "7" "Accessories"] [SearchNode.make "42" "Summer"])
             eq_refl "https://example.com" idle eq_refl).
Defined.

Lemma handleQueryChange_spec_witness :
  url (snd (@handleQueryChange sampleHost "https://example.com" idle))
  = Some "https://example.com" /\
  url (snd (@handleQueryChange sampleHost "exa"
              (snd (@handleQueryChange sampleHost "https://example.com" idle)))) = None /\
  queryCalls (trace (snd (@handleQueryChange sampleHost "exa" idle))) = ["exa"].
Proof.
  split; [|split].
  - exact (proj1 (proj2 (@handleQueryChange_spec sampleHost "https://example.com" idle))
             eq_refl).
  - exact (proj1 (proj2 (proj2
             (@handleQueryChange_spec sampleHost "exa"
                (snd (@handleQueryChange sampleHost "https://example.com" idle)))))
             eq_refl eq_refl).
  - exact (proj1 (proj2 (proj2 (proj2 (proj2
             (@handleQueryChange_spec sampleHost "exa" idle)))))).
Defined.

(** * Further properties of the module *)

(** ** The decoder on arbitrary keys *)

Lemma before_sep_after sep s :
  Js.occurs sep s = true -> (Js.before sep s ++ String sep (Js.after sep s))%string = s.
Proof.
  induction s as [|c rest IH]; simpl; [discriminate|].
  destruct (Ascii.eqb c sep) eqn:E; simpl.
  - apply Ascii.eqb_eq in E. now subst.
  - intros H. now rewrite (IH H).
Qed.

Lemma occurs_before sep s : Js.occurs sep (Js.before sep s) = false.
Proof.
  induction s as [|c rest IH]; simpl; [reflexivity|].
  destruct (Ascii.eqb c sep) eqn:E; simpl; [reflexivity|].
  now rewrite E, IH.
Qed.

Lemma getMenuItemData_encode v :
  Js.occurs colon v = true ->
  (MenuItemData.type (getMenuItemData v) ++ ":" ++ MenuItemData.id (getMenuItemData v))%string
  = v.
Proof.
  intros H. rewrite getMenuItemData_segments. simpl MenuItemData.type. simpl MenuItemData.id.
  exact (before_sep_after colon v H).
Qed.

(** X1. Decoding is undone by encoding: for a key that holds a ':', the
    decoded type, a ':' and the decoded id spell the key again. *)
Theorem getMenuItemData_reencode (v : string) :
  Js.occurs colon v = true ->
  (MenuItemData.type (getMenuItemData v) ++ ":" ++ MenuItemData.id (getMenuItemData v))%string
  = v.
Proof. apply getMenuItemData_encode. Qed.

Lemma getMenuItemData_reencode_witness :
  (MenuItemData.type (getMenuItemData "link:https://a.b/c") ++ ":" ++
   MenuItemData.id (getMenuItemData "link:https://a.b/c"))%string
  = "link:https://a.b/c".
Proof. exact (getMenuItemData_reencode "link:https://a.b/c" eq_refl). Defined.

(** X2. A key without any ':' decodes to the whole key as the type and the
    empty id; the empty key gives the empty type and the empty id. *)
Theorem getMenuItemData_no_separator (v : string) :
  Js.occurs colon v = false ->
  getMenuItemData v = {| MenuItemData.id := ""; MenuItemData.type := v |}.
Proof.
  intros H. unfold getMenuItemData. now rewrite (split_no_sep _ _ H).
Qed.

Lemma getMenuItemData_no_separator_witness :
  getMenuItemData "" = {| MenuItemData.id := ""; MenuItemData.type := "" |} /\
  getMenuItemData "category" = {| MenuItemData.id := ""; MenuItemData.type := "category" |}.
Proof.
  split.
  - exact (getMenuItemData_no_separator "" eq_refl).
  - exact (getMenuItemData_no_separator "category" eq_refl).
Defined.

(** X3. The decoded type never holds a ':', whatever the key. *)
Theorem getMenuItemData_type_no_colon (v : string) :
  Js.occurs colon (MenuItemData.type (getMenuItemData v)) = false.
Proof.
  rewrite getMenuItemData_segments. simpl. apply occurs_before.
Qed.

(** X4. Two keys that both hold a ':' and decode to the same record are the
    same key. *)
Theorem getMenuItemData_injective (v w : string) :
  Js.occurs colon v = true -> Js.occurs colon w = true ->
  getMenuItemData v = getMenuItemData w -> v = w.
Proof.
  intros Hv Hw E.
  rewrite <- (getMenuItemData_encode v Hv), <- (getMenuItemData_encode w Hw), E.
  reflexivity.
Qed.

Lemma getMenuItemData_injective_witness :
  getMenuItemData "page:1" = getMenuItemData ("page" ++ ":" ++ "1") /\
  "page:1" = ("page" ++ ":" ++ "1")%string.
Proof.
  split; [reflexivity|].
  exact (getMenuItemData_injective "page:1" ("page" ++ ":" ++ "1") eq_refl eq_refl eq_refl).
Defined.

(** ** The tree search on whole trees *)

Lemma leavesOf_leaf n : children n = None -> leavesOf n = [n].
Proof. destruct n as [[items|] l x]; simpl; [discriminate | reflexivity]. Qed.

Lemma leaves_app m1 m2 : leaves (m1 ++ m2) = leaves m1 ++ leaves m2.
Proof. unfold leaves. apply flat_map_app. Qed.

Lemma leaves_of_childless menu :
  Forall (fun n => children n = None) menu -> leaves menu = menu.
Proof.
  induction 1 as [|n rest Hn _ IH]; [reflexivity|].
  unfold leaves in *. simpl. now rewrite (leavesOf_leaf n Hn), IH.
Qed.

Lemma leaves_idempotent menu : leaves (leaves menu) = leaves menu.
Proof.
  apply leaves_of_childless. apply Forall_forall.
  intros n Hn. exact (leaves_childless menu n Hn).
Qed.

(** X5. Whatever the search returns is a node of the tree without children
    whose value is the target. *)
Theorem findMenuItem_sound (menu : list SelectMenuItem) (v : string) (found : SelectMenuItem) :
  findMenuItem menu v = Some found ->
  In found (leaves menu) /\ value found = Some v /\ children found = None.
Proof.
  intros H. rewrite findMenuItem_leaves in H. apply find_some in H.
  destruct H as [Hin Hv]. split; [exact Hin|]. split.
  - now apply value_is_true.
  - exact (leaves_childless menu found Hin).
Qed.

Lemma findMenuItem_sound_witness :
  In {| children := None; label := Text "Accessories"; value := Some "category:7" |}
     (leaves categories7) /\
  value {| children := None; label := Text "Accessories"; value := Some "category:7" |}
  = Some "category:7" /\
  children {| children := None; label := Text "Accessories"; value := Some "category:7" |}
  = None.
Proof. exact (findMenuItem_sound categories7 "category:7" _ eq_refl). Defined.

(** X6. Searching a concatenation of two menus is searching the first and,
    only when that finds nothing, the second. *)
Theorem findMenuItem_app (menu1 menu2 : list SelectMenuItem) (v : string) :
  findMenuItem (menu1 ++ menu2) v =
  match findMenuItem menu1 v with
  | Some found => Some found
  | None => findMenuItem menu2 v
  end.
Proof.
  unfold findMenuItem. rewrite map_app. apply find_defined_app.
Qed.

(** X7. Grouping does not matter to the search: on the flat list of the
    tree's leaves it returns what it returns on the tree. *)
Theorem findMenuItem_flatten (menu : list SelectMenuItem) (v : string) :
  findMenuItem (leaves menu) v = findMenuItem menu v.
Proof.
  rewrite (findMenuItem_leaves (leaves menu)), leaves_idempotent.
  symmetry. apply findMenuItem_leaves.
Qed.

(** ** The display label on whole trees *)

(** X8. Whenever the resolver returns, what it returns is accounted for:
    the decoded id when the decoded type is "link", and otherwise the
    label, as a string, of the first leaf of the tree in depth-first order
    that carries the key; in particular such a leaf then exists. *)
Theorem getDisplayValue_returned_label
    (menu : list SelectMenuItem) (v shown : string) :
  getDisplayValue menu v = Js.Return shown ->
  (MenuItemData.type (getMenuItemData v) = "link" /\
   shown = MenuItemData.id (getMenuItemData v)) \/
  (MenuItemData.type (getMenuItemData v) <> "link" /\
   exists leaf, find (value_is v) (leaves menu) = Some leaf /\
                value leaf = Some v /\
                shown = toString (label leaf)).
Proof.
  unfold getDisplayValue.
  destruct (String.eqb (MenuItemData.type (getMenuItemData v)) "link") eqn:E.
  - apply String.eqb_eq in E. intros H. injection H as <-. left. now split.
  - apply String.eqb_neq in E. rewrite findMenuItem_leaves.
    destruct (find (value_is v) (leaves menu)) as [leaf|] eqn:F; [|discriminate].
    intros H. injection H as <-. right. split; [exact E|].
    exists leaf. split; [reflexivity|]. split; [|reflexivity].
    apply find_some in F. now apply value_is_true.
Qed.

Lemma getDisplayValue_returned_label_witness :
  (MenuItemData.type (getMenuItemData "category:7") = "link" /\
   "Accessories" = MenuItemData.id (getMenuItemData "category:7")) \/
  (MenuItemData.type (getMenuItemData "category:7") <> "link" /\
   exists leaf, find (value_is "category:7") (leaves categories7) = Some leaf /\
                value leaf = Some "category:7" /\
                "Accessories" = toString (label leaf)).
Proof.
  exact (getDisplayValue_returned_label categories7 "category:7" "Accessories" eq_refl).
Defined.

(** ** The option tree of a render *)

Lemma findEntity_some i nodes node :
  findEntity i nodes = Some node -> In node nodes /\ SearchNode.id node = i.
Proof.
  intros H. apply find_some in H. destruct H as [Hin Hid].
  apply String.eqb_eq in Hid. now split.
Qed.

Lemma findEntity_in nodes node :
  In node nodes ->
  exists first, findEntity (SearchNode.id node) nodes = Some first.
Proof.
  intros Hin. destruct (findEntity (SearchNode.id node) nodes) as [first|] eqn:F.
  - now exists first.
  - apply (find_none _ _ F) in Hin. simpl in Hin.
    rewrite String.eqb_refl in Hin. discriminate.
Qed.

Section OptionTree.
Context {host : Host}.

Lemma options_no_url categories collections url :
  Js.truthy_opt url = false ->
  options categories collections url =
  (match categories with [] => [] | _ :: _ => [categoryGroup categories] end) ++
  (match collections with [] => [] | _ :: _ => [collectionGroup collections] end).
Proof.
  intros H. unfold options.
  assert (E : forall fallback : list SelectMenuItem,
             match url with
             | Some u => if Js.truthy u then [linkOption u] else fallback
             | None => fallback
             end = fallback).
  { intros fallback. destruct url as [u|]; [|reflexivity]. simpl in H. now rewrite H. }
  rewrite E. destruct categories, collections; reflexivity.
Qed.

Lemma leaves_categoryOptions categories :
  leaves (map categoryOption categories) = map categoryOption categories.
Proof.
  apply leaves_of_childless. apply Forall_forall.
  intros n H. apply in_map_iff in H. destruct H as [c [<- _]]. reflexivity.
Qed.

Lemma leaves_collectionOptions collections :
  leaves (map collectionOption collections) = map collectionOption collections.
Proof.
  apply leaves_of_childless. apply Forall_forall.
  intros n H. apply in_map_iff in H. destruct H as [c [<- _]]. reflexivity.
Qed.

Lemma leaves_group items l x : leaves [MkSelectMenuItem (Some items) l x] = leaves items.
Proof. unfold leaves. simpl. apply app_nil_r. Qed.

Lemma leaves_options_no_url categories collections url :
  Js.truthy_opt url = false ->
  leaves (options categories collections url) =
  map categoryOption categories ++ map collectionOption collections.
Proof.
  intros H. rewrite (options_no_url _ _ _ H), leaves_app.
  f_equal.
  - destruct categories as [|c cs]; [reflexivity|].
    unfold categoryGroup. rewrite leaves_group. apply leaves_categoryOptions.
  - destruct collections as [|c cs]; [reflexivity|].
    unfold collectionGroup. rewrite leaves_group. apply leaves_collectionOptions.
Qed.

Lemma find_category_among_categories i categories :
  find (value_is ("category:" ++ i)) (map categoryOption categories) =
  option_map categoryOption (findEntity i categories).
Proof.
  unfold findEntity.
  induction categories as [|c cs IH]; [reflexivity|]. simpl.
  unfold value_is at 1. simpl.
  destruct (String.eqb (SearchNode.id c) i); [reflexivity | exact IH].
Qed.

Lemma find_collection_among_collections i collections :
  find (value_is ("collection:" ++ i)) (map collectionOption collections) =
  option_map collectionOption (findEntity i collections).
Proof.
  unfold findEntity.
  induction collections as [|c cs IH]; [reflexivity|]. simpl.
  unfold value_is at 1. simpl.
  destruct (String.eqb (SearchNode.id c) i); [reflexivity | exact IH].
Qed.

Lemma find_collection_among_categories i categories :
  find (value_is ("collection:" ++ i)) (map categoryOption categories) = None.
Proof. induction categories as [|c cs IH]; [reflexivity | exact IH]. Qed.

Lemma find_category_leaf i categories collections url :
  Js.truthy_opt url = false ->
  findMenuItem (options categories collections url) ("category:" ++ i) =
  option_map categoryOption (findEntity i categories).
Proof.
  intros H. rewrite findMenuItem_leaves, (leaves_options_no_url _ _ _ H).
  rewrite find_app_first, find_category_among_categories.
  destruct (findEntity i categories); [reflexivity|]. simpl.
  induction collections as [|c cs IH]; [reflexivity | exact IH].
Qed.

Lemma find_collection_leaf i categories collections url :
  Js.truthy_opt url = false ->
  findMenuItem (options categories collections url) ("collection:" ++ i) =
  option_map collectionOption (findEntity i collections).
Proof.
  intros H. rewrite findMenuItem_leaves, (leaves_options_no_url _ _ _ H).
  rewrite find_app_first, find_collection_among_categories.
  apply find_collection_among_collections.
Qed.

Lemma getMenuItemData_category i :
  getMenuItemData ("category:" ++ i) =
  {| MenuItemData.id := i; MenuItemData.type := "category" |}.
Proof. exact (getMenuItemData_tagged "category" i eq_refl). Qed.

Lemma getMenuItemData_collection i :
  getMenuItemData ("collection:" ++ i) =
  {| MenuItemData.id := i; MenuItemData.type := "collection" |}.
Proof. exact (getMenuItemData_tagged "collection" i eq_refl). Qed.

Lemma getMenuItemData_link u :
  getMenuItemData ("link:" ++ u) =
  {| MenuItemData.id := u; MenuItemData.type := "link" |}.
Proof. exact (getMenuItemData_tagged "link" u eq_refl). Qed.

Lemma category_key_type i : MenuItemData.type (getMenuItemData ("category:" ++ i)) <> "link".
Proof. rewrite getMenuItemData_category. simpl. discriminate. Qed.

Lemma collection_key_type i : MenuItemData.type (getMenuItemData ("collection:" ++ i)) <> "link".
Proof. rewrite getMenuItemData_collection. simpl. discriminate. Qed.

Lemma offered_leaf categories collections url leaf :
  In leaf (leaves (options categories collections url)) ->
  (Js.truthy_opt url = false /\
   exists c, In c categories /\ leaf = categoryOption c) \/
  (Js.truthy_opt url = false /\
   exists c, In c collections /\ leaf = collectionOption c) \/
  (exists u, url = Some u /\ Js.truthy u = true /\ leaf = linkOption u).
Proof.
  destruct (Js.truthy_opt url) eqn:T.
  - destruct url as [u|]; [|discriminate]. simpl in T.
    rewrite (options_truthy_url _ _ _ T). simpl. intros [<-|[]].
    right; right. now exists u.
  - rewrite (leaves_options_no_url _ _ _ T). intros H.
    apply in_app_or in H. destruct H as [H|H]; apply in_map_iff in H;
      destruct H as [c [<- Hc]]; [left | right; left]; (split; [reflexivity|]); now exists c.
Qed.

(** X10. Without a detected URL the tree is exactly the categories group
    followed by the collections group, a group being left out when its
    list is empty: the categories group holds one option per category, in
    list order, under the caption "Categories" with their number, and the
    collections group likewise.  So every top-level node is a group without
    a value and with at least one child, and the leaves are the categories'
    options followed by the collections' options. *)
Theorem options_entity_groups (categories collections : list SearchNode.t) (url : option string) :
  Js.truthy_opt url = false ->
  options categories collections url =
  (match categories with
   | [] => []
   | _ :: _ =>
       [ {| children := Some (map categoryOption categories);
            label := Text (i18n_t "Categories ({{ number }})"
                             [("number", TNumber (List.length categories))]);
            value := None |} ]
   end) ++
  (match collections with
   | [] => []
   | _ :: _ =>
       [ {| children := Some (map collectionOption collections);
            label := Text (i18n_t "Collections ({{ number }})"
                             [("number", TNumber (List.length collections))]);
            value := None |} ]
   end) /\
  leaves (options categories collections url) =
  map categoryOption categories ++ map collectionOption collections /\
  Forall (fun node => value node = None /\
                      exists items, children node = Some items /\ items <> [])
         (options categories collections url) /\
  List.length (options categories collections url) =
  (match categories with [] => 0 | _ :: _ => 1 end +
   match collections with [] => 0 | _ :: _ => 1 end)%nat.
Proof.
  intros H. split; [exact (options_no_url _ _ _ H)|].
  split; [exact (leaves_options_no_url _ _ _ H)|].
  rewrite (options_no_url _ _ _ H).
  destruct categories as [|c cs], collections as [|d ds]; simpl; split; try reflexivity;
    repeat constructor; eexists; (split; [reflexivity | discriminate]).
Qed.

(** X11. Every leaf of the tree of a render carries a key that decodes to
    where it came from: a category's option to type "category" and the
    category's id, a collection's option to type "collection" and the
    collection's id (an id may hold ':'), the link option to type "link" and
    the detected URL.  No leaf of type "page" is ever offered. *)
Theorem options_keys_decode
    (categories collections : list SearchNode.t) (url : option string) (leaf : SelectMenuItem) :
  In leaf (leaves (options categories collections url)) ->
  exists v, value leaf = Some v /\
    MenuItemData.type (getMenuItemData v) <> "page" /\
    ((exists c, In c categories /\ label leaf = Text (SearchNode.name c) /\
                getMenuItemData v =
                {| MenuItemData.id := SearchNode.id c; MenuItemData.type := "category" |}) \/
     (exists c, In c collections /\ label leaf = Text (SearchNode.name c) /\
                getMenuItemData v =
                {| MenuItemData.id := SearchNode.id c; MenuItemData.type := "collection" |}) \/
     (exists u, url = Some u /\
                getMenuItemData v =
                {| MenuItemData.id := u; MenuItemData.type := "link" |})).
Proof.
  intros H. apply offered_leaf in H.
  destruct H as [[_ [c [Hc ->]]] | [[_ [c [Hc ->]]] | [u [-> [_ ->]]]]].
  - exists ("category:" ++ SearchNode.id c)%string. split; [reflexivity|].
    rewrite getMenuItemData_category.
    split; [simpl; discriminate|]. left. exists c. repeat split. exact Hc.
  - exists ("collection:" ++ SearchNode.id c)%string. split; [reflexivity|].
    rewrite getMenuItemData_collection.
    split; [simpl; discriminate|]. right; left. exists c. repeat split. exact Hc.
  - exists ("link:" ++ u)%string. split; [reflexivity|].
    rewrite getMenuItemData_link.
    split; [simpl; discriminate|]. right; right. exists u. split; reflexivity.
Qed.

Lemma offered_key_resolves
    (categories collections : list SearchNode.t) (url : option string)
    (leaf : SelectMenuItem) (v : string) :
  In leaf (leaves (options categories collections url)) ->
  value leaf = Some v ->
  (exists c, (In c categories \/ In c collections) /\
             SearchNode.id c = MenuItemData.id (getMenuItemData v) /\
             getDisplayValue (options categories collections url) v =
             Js.Return (SearchNode.name c)) \/
  (url = Some (MenuItemData.id (getMenuItemData v)) /\
   getDisplayValue (options categories collections url) v =
   Js.Return (MenuItemData.id (getMenuItemData v))).
Proof.
  intros H Hv. apply offered_leaf in H.
  destruct H as [[T [c [Hc ->]]] | [[T [c [Hc ->]]] | [u [-> [_ ->]]]]].
  - assert (E : v = ("category:" ++ SearchNode.id c)%string)
      by (simpl in Hv; now injection Hv).
    subst v. left. destruct (findEntity_in _ _ Hc) as [first F].
    destruct (findEntity_some _ _ _ F) as [Hin Hid].
    exists first. split; [now left|].
    rewrite getMenuItemData_category. split; [exact Hid|].
    apply (getDisplayValue_found _ _ (categoryOption first)); [apply category_key_type|].
    now rewrite (find_category_leaf _ _ _ _ T), F.
  - assert (E : v = ("collection:" ++ SearchNode.id c)%string)
      by (simpl in Hv; now injection Hv).
    subst v. left. destruct (findEntity_in _ _ Hc) as [first F].
    destruct (findEntity_some _ _ _ F) as [Hin Hid].
    exists first. split; [now right|].
    rewrite getMenuItemData_collection. split; [exact Hid|].
    apply (getDisplayValue_found _ _ (collectionOption first)); [apply collection_key_type|].
    now rewrite (find_collection_leaf _ _ _ _ T), F.
  - assert (E : v = ("link:" ++ u)%string) by (simpl in Hv; now injection Hv).
    subst v. right. unfold getDisplayValue.
    rewrite getMenuItemData_link. simpl. split; reflexivity.
Qed.

(** X12. Every key the tree of a render offers resolves against that tree
    without throwing, and to text from the props: the name of a category or
    collection of the lists with the id the key decodes to, or the detected
    URL; never the printed form of the link option's element. *)
Theorem options_keys_resolve
    (categories collections : list SearchNode.t) (url : option string)
    (leaf : SelectMenuItem) (v : string) :
  In leaf (leaves (options categories collections url)) ->
  value leaf = Some v ->
  (exists c, (In c categories \/ In c collections) /\
             SearchNode.id c = MenuItemData.id (getMenuItemData v) /\
             getDisplayValue (options categories collections url) v =
             Js.Return (SearchNode.name c)) \/
  (url = Some (MenuItemData.id (getMenuItemData v)) /\
   getDisplayValue (options categories collections url) v =
   Js.Return (MenuItemData.id (getMenuItemData v))).
Proof. apply offered_key_resolves. Qed.

(** X13. Without a detected URL, the key "category:" followed by an id
    resolves to the name of the first category of the list with that id,
    and throws when the list has none; the collections play no part. *)
Theorem getDisplayValue_category_key
    (categories collections : list SearchNode.t) (url : option string) (i : string) :
  Js.truthy_opt url = false ->
  getDisplayValue (options categories collections url) ("category:" ++ i) =
  match findEntity i categories with
  | Some category => Js.Return (SearchNode.name category)
  | None => Js.Throw (Js.TypeError_property_of_undefined "label")
  end.
Proof.
  intros T. pose proof (find_category_leaf i categories collections url T) as F.
  destruct (findEntity i categories) as [c|]; simpl in F.
  - exact (getDisplayValue_found _ _ _ (category_key_type i) F).
  - exact (getDisplayValue_not_found _ _ (category_key_type i) F).
Qed.

(** X14. Without a detected URL, the key "collection:" followed by an id
    resolves to the name of the first collection of the list with that id,
    whatever the categories are (one of them may have the same id), and
    throws when the list has none. *)
Theorem getDisplayValue_collection_key
    (categories collections : list SearchNode.t) (url : option string) (i : string) :
  Js.truthy_opt url = false ->
  getDisplayValue (options categories collections url) ("collection:" ++ i) =
  match findEntity i collections with
  | Some collection => Js.Return (SearchNode.name collection)
  | None => Js.Throw (Js.TypeError_property_of_undefined "label")
  end.
Proof.
  intros T. pose proof (find_collection_leaf i categories collections url T) as F.
  destruct (findEntity i collections) as [c|]; simpl in F.
  - exact (getDisplayValue_found _ _ _ (collection_key_type i) F).
  - exact (getDisplayValue_not_found _ _ (collection_key_type i) F).
Qed.

End OptionTree.

Lemma options_entity_groups_witness :
  @options sampleHost sampleCategories [] None =
  [ {| children := Some [ {| children := None; label := Text "Accessories";
                             value := Some "category:7" |};
                          {| children := None; label := Text "Groceries";
                             value := Some "category:8" |} ];
       label := Text "Categories ({{ number }})"; value := None |} ] /\
  leaves (@options sampleHost sampleCategories sampleCollections None) =
  map categoryOption sampleCategories ++ map collectionOption sampleCollections /\
  List.length (@options sampleHost sampleCategories sampleCollections None) = 2.
Proof.
  split; [|split].
  - exact (proj1 (@options_entity_groups sampleHost sampleCategories [] None eq_refl)).
  - exact (proj1 (proj2
             (@options_entity_groups sampleHost sampleCategories sampleCollections None
                eq_refl))).
  - exact (proj2 (proj2 (proj2
             (@options_entity_groups sampleHost sampleCategories sampleCollections None
                eq_refl)))).
Defined.

Lemma options_keys_decode_witness :
  exists v, value (collectionOption (SearchNode.make "7" "Winter")) = Some v /\
    MenuItemData.type (getMenuItemData v) <> "page" /\
    ((exists c, In c sampleCategories /\
                label (collectionOption (SearchNode.make "7" "Winter")) = Text (SearchNode.name c) /\
                getMenuItemData v =
                {| MenuItemData.id := SearchNode.id c; MenuItemData.type := "category" |}) \/
     (exists c, In c sampleCollections /\
                label (collectionOption (SearchNode.make "7" "Winter")) = Text (SearchNode.name c) /\
                getMenuItemData v =
                {| MenuItemData.id := SearchNode.id c; MenuItemData.type := "collection" |}) \/
     (exists u, None = Some u /\
                getMenuItemData v =
                {| MenuItemData.id := u; MenuItemData.type := "link" |})).
Proof.
  apply (@options_keys_decode sampleHost sampleCategories sampleCollections None).
  simpl. tauto.
Defined.

Lemma options_keys_resolve_witness :
  (exists c, (In c sampleCategories \/ In c sampleCollections) /\
             SearchNode.id c = MenuItemData.id (getMenuItemData "collection:7") /\
             getDisplayValue (@options sampleHost sampleCategories sampleCollections None)
               "collection:7" = Js.Return (SearchNode.name c)) \/
  (None = Some (MenuItemData.id (getMenuItemData "collection:7")) /\
   getDisplayValue (@options sampleHost sampleCategories sampleCollections None)
     "collection:7" = Js.Return (MenuItemData.id (getMenuItemData "collection:7"))).
Proof.
  apply (@options_keys_resolve sampleHost sampleCategories sampleCollections None
           (collectionOption (SearchNode.make "7" "Winter")) "collection:7").
  - simpl. tauto.
  - reflexivity.
Defined.

Lemma getDisplayValue_category_key_witness :
  getDisplayValue (@options sampleHost sampleCategories sampleCollections None) "category:7"
  = Js.Return "Accessories" /\
  getDisplayValue (@options sampleHost sampleCategories sampleCollections None) "category:42"
  = Js.Throw (Js.TypeError_property_of_undefined "label").
Proof.
  split.
  - exact (@getDisplayValue_category_key sampleHost sampleCategories sampleCollections None
             "7" eq_refl).
  - exact (@getDisplayValue_category_key sampleHost sampleCategories sampleCollections None
             "42" eq_refl).
Defined.

Lemma getDisplayValue_collection_key_witness :
  getDisplayValue (@options sampleHost sampleCategories sampleCollections None) "collection:7"
  = Js.Return "Winter".
Proof.
  exact (@getDisplayValue_collection_key sampleHost sampleCategories sampleCollections None
           "7" eq_refl).
Defined.

(** ** The handlers *)

Lemma handleSelectChange_run options v st :
  handleSelectChange options v st =
  let committed :=
    {| MenuItemDialogFormData.id := MenuItemData.id (getMenuItemData v);
       MenuItemDialogFormData.name := MenuItemDialogFormData.name (data st);
       MenuItemDialogFormData.type := MenuItemData.type (getMenuItemData v) |} in
  let changes :=
    [ Change "id" (MenuItemData.id (getMenuItemData v));
      Change "type" (MenuItemData.type (getMenuItemData v)) ] in
  match getDisplayValue options v with
  | Js.Return shown =>
      (Js.Return tt,
       {| displayValue := shown; url := url st; data := committed;
          trace := trace st ++ changes ++ [SetDisplayValue shown] |})
  | Js.Throw e =>
      (Js.Throw e,
       {| displayValue := displayValue st; url := url st; data := committed;
          trace := trace st ++ changes |})
  end.
Proof.
  unfold handleSelectChange, change, bind, eval, setDisplayValue, emit. simpl.
  destruct (getDisplayValue options v); simpl; repeat rewrite <- app_assoc; reflexivity.
Qed.

(** X17. Selecting a key "link:" followed by a URL never consults the tree
    and never throws: it writes the URL as id, "link" as type, and shows
    the URL itself, on any tree. *)
Theorem handleSelectChange_link (options : list SelectMenuItem) (u : string) (st : State) :
  handleSelectChange options ("link:" ++ u) st =
  (Js.Return tt,
   {| displayValue := u;
      url := url st;
      data := {| MenuItemDialogFormData.id := u;
                 MenuItemDialogFormData.name := MenuItemDialogFormData.name (data st);
                 MenuItemDialogFormData.type := "link" |};
      trace := trace st ++ [ Change "id" u; Change "type" "link"; SetDisplayValue u ] |}).
Proof.
  rewrite handleSelectChange_run. unfold getDisplayValue.
  rewrite getMenuItemData_link. reflexivity.
Qed.

(** X18. Selecting a key of another type than "link" that no leaf of the
    tree carries stops half way: id and type are already written to the
    form data when the label resolution throws, and the display value keeps
    its old text. *)
Theorem handleSelectChange_missing_key
    (options : list SelectMenuItem) (v : string) (st : State) :
  MenuItemData.type (getMenuItemData v) <> "link" ->
  (forall leaf, In leaf (leaves options) -> value leaf <> Some v) ->
  handleSelectChange options v st =
  (Js.Throw (Js.TypeError_property_of_undefined "label"),
   {| displayValue := displayValue st;
      url := url st;
      data := {| MenuItemDialogFormData.id := MenuItemData.id (getMenuItemData v);
                 MenuItemDialogFormData.name := MenuItemDialogFormData.name (data st);
                 MenuItemDialogFormData.type := MenuItemData.type (getMenuItemData v) |};
      trace := trace st ++ [ Change "id" (MenuItemData.id (getMenuItemData v));
                             Change "type" (MenuItemData.type (getMenuItemData v)) ] |}).
Proof.
  intros Ht Hno. apply findMenuItem_none in Hno.
  rewrite handleSelectChange_run, (getDisplayValue_not_found _ _ Ht Hno). reflexivity.
Qed.

Lemma handleSelectChange_missing_key_witness :
  handleSelectChange categories7 "category:8" idle =
  (Js.Throw (Js.TypeError_property_of_undefined "label"),
   {| displayValue := "";
      url := None;
      data := {| MenuItemDialogFormData.id := "8";
                 MenuItemDialogFormData.name := "";
                 MenuItemDialogFormData.type := "category" |};
      trace := [ Change "id" "8"; Change "type" "category" ] |}).
Proof.
  apply (handleSelectChange_missing_key categories7 "category:8" idle).
  - simpl. discriminate.
  - simpl. intros leaf [<-|[]]. simpl. discriminate.
Defined.

(** X19. Whatever the tree and the key, and whether or not it throws, the
    selection handler writes the decoded id and type to the form data,
    keeps the form's name and the detected URL, and never calls
    [onQueryChange]; it returns exactly when the label resolves, and then
    shows the resolved label. *)
Theorem handleSelectChange_frame (options : list SelectMenuItem) (v : string) (st : State) :
  let after := snd (handleSelectChange options v st) in
  MenuItemDialogFormData.id (data after) = MenuItemData.id (getMenuItemData v) /\
  MenuItemDialogFormData.type (data after) = MenuItemData.type (getMenuItemData v) /\
  MenuItemDialogFormData.name (data after) = MenuItemDialogFormData.name (data st) /\
  url after = url st /\
  queryCalls (trace after) = queryCalls (trace st) /\
  match getDisplayValue options v with
  | Js.Return shown =>
      fst (handleSelectChange options v st) = Js.Return tt /\ displayValue after = shown
  | Js.Throw e =>
      fst (handleSelectChange options v st) = Js.Throw e /\
      displayValue after = displayValue st
  end.
Proof.
  rewrite handleSelectChange_run.
  destruct (getDisplayValue options v); simpl;
    rewrite queryCalls_app; simpl; rewrite app_nil_r; repeat split.
Qed.

Section HandlerProperties.
Context {host : Host}.

Lemma options_falsy_url categories collections url :
  Js.truthy_opt url = false ->
  options categories collections url = options categories collections None.
Proof.
  intros H. rewrite (options_no_url _ _ _ H).
  symmetry. now apply options_no_url.
Qed.

Lemma handleQueryChange_truthy query st :
  Js.truthy_opt (url (snd (handleQueryChange query st))) = isUrl query && Js.truthy query.
Proof.
  rewrite handleQueryChange_run. simpl snd.
  destruct (isUrl query); [reflexivity|].
  destruct (Js.truthy_opt (url st)) eqn:T; simpl; [reflexivity | exact T].
Qed.

Lemma handleQueries_app earlier later st :
  handleQueries (earlier ++ later) st = handleQueries later (handleQueries earlier st).
Proof.
  revert st. induction earlier as [|q qs IH]; intros st; simpl; [reflexivity | apply IH].
Qed.

(** X15. The tree of the render after a keystroke depends on that query
    alone, not on what was detected before: it is the single link option
    when the query is a non-empty string that [isUrl] accepts, and the
    entity groups otherwise. *)
Theorem options_after_query
    (categories collections : list SearchNode.t) (query : string) (st : State) :
  options categories collections (url (snd (handleQueryChange query st))) =
  if isUrl query && Js.truthy query then [linkOption query]
  else options categories collections None.
Proof.
  pose proof (handleQueryChange_truthy query st) as T.
  destruct (isUrl query && Js.truthy query) eqn:E.
  - apply andb_prop in E. destruct E as [Hu Ht].
    rewrite handleQueryChange_run, Hu. simpl url. exact (options_truthy_url _ _ _ Ht).
  - exact (options_falsy_url _ _ _ T).
Qed.

(** X16. A series of keystrokes forwards every query to [onQueryChange],
    once each and in the order typed, leaves the form data and the display
    value alone, and ends with a URL detected exactly when the last query
    is a non-empty string that [isUrl] accepts. *)
Theorem handleQueries_spec (queries : list string) (st : State) :
  queryCalls (trace (handleQueries queries st)) = queryCalls (trace st) ++ queries /\
  data (handleQueries queries st) = data st /\
  displayValue (handleQueries queries st) = displayValue st /\
  (forall earlier query, queries = earlier ++ [query] ->
     Js.truthy_opt (url (handleQueries queries st)) = isUrl query && Js.truthy query).
Proof.
  split; [|split; [|split]].
  - revert st. induction queries as [|q qs IH]; intros st; simpl.
    + now rewrite app_nil_r.
    + rewrite IH, handleQueryChange_run. simpl snd.
      destruct (isUrl q); [|destruct (Js.truthy_opt (url st))]; simpl trace;
        repeat rewrite queryCalls_app; simpl; rewrite ?app_nil_r, <- app_assoc; reflexivity.
  - revert st. induction queries as [|q qs IH]; intros st; simpl; [reflexivity|].
    rewrite IH, handleQueryChange_run. simpl snd.
    destruct (isUrl q); [|destruct (Js.truthy_opt (url st))]; reflexivity.
  - revert st. induction queries as [|q qs IH]; intros st; simpl; [reflexivity|].
    rewrite IH, handleQueryChange_run. simpl snd.
    destruct (isUrl q); [|destruct (Js.truthy_opt (url st))]; reflexivity.
  - intros earlier query ->. rewrite handleQueries_app. simpl.
    apply handleQueryChange_truthy.
Qed.

(** X20. While a URL is detected the tree holds the link option only, so a
    key of any other type than "link" no longer resolves: the label
    resolver throws on it, whatever the candidate lists contain. *)
Theorem getDisplayValue_entity_key_under_url
    (categories collections : list SearchNode.t) (u v : string) :
  Js.truthy u = true ->
  MenuItemData.type (getMenuItemData v) <> "link" ->
  getDisplayValue (options categories collections (Some u)) v =
  Js.Throw (Js.TypeError_property_of_undefined "label").
Proof.
  intros Hu Ht. apply getDisplayValue_not_found; [exact Ht|].
  rewrite (options_truthy_url _ _ _ Hu). apply findMenuItem_none.
  intros leaf [<-|[]] Hv.
  assert (E : v = ("link:" ++ u)%string) by (simpl in Hv; now injection Hv).
  subst v. rewrite getMenuItemData_link in Ht. now destruct Ht.
Qed.

(** X21. Selecting any key that the tree of the render offers returns
    without throwing: it writes the decoded id and type, one of "category",
    "collection" and "link", to the form data and then shows the resolved
    label. *)
Theorem handleSelectChange_offered
    (categories collections : list SearchNode.t) (u : option string)
    (leaf : SelectMenuItem) (v : string) (st : State) :
  In leaf (leaves (options categories collections u)) ->
  value leaf = Some v ->
  In (MenuItemData.type (getMenuItemData v)) ["category"; "collection"; "link"] /\
  exists shown,
    getDisplayValue (options categories collections u) v = Js.Return shown /\
    handleSelectChange (options categories collections u) v st =
    (Js.Return tt,
     {| displayValue := shown;
        url := url st;
        data := {| MenuItemDialogFormData.id := MenuItemData.id (getMenuItemData v);
                   MenuItemDialogFormData.name := MenuItemDialogFormData.name (data st);
                   MenuItemDialogFormData.type := MenuItemData.type (getMenuItemData v) |};
        trace := trace st ++ [ Change "id" (MenuItemData.id (getMenuItemData v));
                               Change "type" (MenuItemData.type (getMenuItemData v));
                               SetDisplayValue shown ] |}).
Proof.
  intros Hin Hv. split.
  - apply offered_leaf in Hin.
    destruct Hin as [[_ [c [_ ->]]] | [[_ [c [_ ->]]] | [w [_ [_ ->]]]]].
    + assert (E : v = ("category:" ++ SearchNode.id c)%string)
        by (simpl in Hv; now injection Hv).
      subst v. rewrite getMenuItemData_category. simpl. tauto.
    + assert (E : v = ("collection:" ++ SearchNode.id c)%string)
        by (simpl in Hv; now injection Hv).
      subst v. rewrite getMenuItemData_collection. simpl. tauto.
    + assert (E : v = ("link:" ++ w)%string) by (simpl in Hv; now injection Hv).
      subst v. rewrite getMenuItemData_link. simpl. tauto.
  - assert (R : exists shown,
               getDisplayValue (options categories collections u) v = Js.Return shown).
    { destruct (offered_key_resolves _ _ _ _ _ Hin Hv) as [[c [_ [_ R]]] | [_ R]];
        eexists; exact R. }
    destruct R as [shown R]. exists shown. split; [exact R|].
    rewrite handleSelectChange_run, R. reflexivity.
Qed.

End HandlerProperties.

Lemma handleQueries_spec_witness :
  Js.truthy_opt
    (url (@handleQueries sampleHost ["https://example.com"; "exa"] idle)) = false /\
  queryCalls (trace (@handleQueries sampleHost ["https://example.com"; "exa"] idle))
  = ["https://example.com"; "exa"].
Proof.
  split.
  - exact (proj2 (proj2 (proj2
             (@handleQueries_spec sampleHost ["https://example.com"; "exa"] idle)))
             ["https://example.com"] "exa" eq_refl).
  - exact (proj1 (@handleQueries_spec sampleHost ["https://example.com"; "exa"] idle)).
Defined.

Lemma getDisplayValue_entity_key_under_url_witness :
  getDisplayValue
    (@options sampleHost sampleCategories sampleCollections (Some "https://example.com"))
    "category:7"
  = Js.Throw (Js.TypeError_property_of_undefined "label").
Proof.
  apply (@getDisplayValue_entity_key_under_url sampleHost sampleCategories sampleCollections
           "https://example.com" "category:7").
  - reflexivity.
  - simpl. discriminate.
Defined.

Lemma handleSelectChange_offered_witness :
  In (MenuItemData.type (getMenuItemData "category:8")) ["category"; "collection"; "link"] /\
  exists shown,
    getDisplayValue (@options sampleHost sampleCategories sampleCollections None) "category:8"
    = Js.Return shown /\
    handleSelectChange (@options sampleHost sampleCategories sampleCollections None)
      "category:8" idle =
    (Js.Return tt,
     {| displayValue := shown;
        url := url idle;
        data := {| MenuItemDialogFormData.id := MenuItemData.id (getMenuItemData "category:8");
                   MenuItemDialogFormData.name := MenuItemDialogFormData.name (data idle);
                   MenuItemDialogFormData.type :=
                     MenuItemData.type (getMenuItemData "category:8") |};
        trace := trace idle ++
                 [ Change "id" (MenuItemData.id (getMenuItemData "category:8"));
                   Change "type" (MenuItemData.type (getMenuItemData "category:8"));
                   SetDisplayValue shown ] |}).
Proof.
  apply (@handleSelectChange_offered sampleHost sampleCategories sampleCollections None
           (categoryOption (SearchNode.make "8" "Groceries")) "category:8" idle).
  - simpl. tauto.
  - reflexivity.
Defined.

Lemma findEntity_unique nodes node :
  NoDup (map SearchNode.id nodes) -> In node nodes ->
  findEntity (SearchNode.id node) nodes = Some node.
Proof.
  unfold findEntity. induction nodes as [|n rest IH]; intros Hnd Hin; [destruct Hin|].
  simpl in Hnd. inversion Hnd as [|i ids Hfresh Hrest]; subst.
  simpl. destruct Hin as [->|Hin].
  - now rewrite String.eqb_refl.
  - destruct (String.eqb (SearchNode.id n) (SearchNode.id node)) eqn:E.
    + apply String.eqb_eq in E. exfalso. apply Hfresh. rewrite E. now apply in_map.
    + now apply IH.
Qed.

(** X22. When the ids of a candidate list are pairwise distinct and no URL
    is detected, the key built for any candidate of the list resolves to
    that candidate's own name: for categories and, whatever the categories
    are, for collections. *)
Theorem getDisplayValue_own_name
    {host : Host} (categories collections : list SearchNode.t) (url : option string)
    (node : SearchNode.t) :
  Js.truthy_opt url = false ->
  (NoDup (map SearchNode.id categories) -> In node categories ->
   getDisplayValue (options categories collections url)
     ("category:" ++ SearchNode.id node) = Js.Return (SearchNode.name node)) /\
  (NoDup (map SearchNode.id collections) -> In node collections ->
   getDisplayValue (options categories collections url)
     ("collection:" ++ SearchNode.id node) = Js.Return (SearchNode.name node)).
Proof.
  intros T. split; intros Hnd Hin.
  - apply (getDisplayValue_found _ _ (categoryOption node)); [apply category_key_type|].
    now rewrite (find_category_leaf _ _ _ _ T), (findEntity_unique _ _ Hnd Hin).
  - apply (getDisplayValue_found _ _ (collectionOption node)); [apply collection_key_type|].
    now rewrite (find_collection_leaf _ _ _ _ T), (findEntity_unique _ _ Hnd Hin).
Qed.

Lemma getDisplayValue_own_name_witness :
  getDisplayValue (@options sampleHost sampleCategories sampleCollections None)
    ("category:" ++ SearchNode.id (SearchNode.make "8" "Groceries"))
  = Js.Return (SearchNode.name (SearchNode.make "8" "Groceries")).
Proof.
  apply (proj1 (@getDisplayValue_own_name sampleHost sampleCategories sampleCollections None
                  (SearchNode.make "8" "Groceries") eq_refl)).
  - simpl. repeat constructor; simpl; intuition discriminate.
  - simpl. tauto.
Defined.
